(** * fhir-works-on-aws-search-es: token queries and subscription matching

    A shallow embedding of

    - [src/QueryBuilder/typeQueries/tokenQuery.ts] (the Elasticsearch query
      fragment built for a token search value), and
    - [src/StreamSubscriptionMatcher/StreamSubscriptionMatcher.ts]
      ([matchSubscription] and the body of [StreamSubscriptionMatcher.match]),
      and
    - the compiled [elasticSearch.js] (the endpoint and the offline switch
      read from the environment when the client is built).

    Object literals of the TypeScript source are kept as JSON values, so that
    each query can be compared with the literal in the source.  Calls to the
    logger and to [console.log] write to a log only and are left out. *)

From Stdlib Require Import Ascii String List Bool Arith Lia.
From Equations Require Import Equations.
Import ListNotations.
Open Scope string_scope.

(** ** JSON values *)

Module Json.

(** A JavaScript object literal is an association list of its properties in
    the order they are written; an array is a list. *)
#[warnings="-register-all"]
Inductive json : Type :=
| JNull
| JBool (b : bool)
| JStr (s : string)
| JArr (items : list json)
| JObj (props : list (string * json)).

(** [o[k]] on a value: [None] stands for [undefined]. *)
Fixpoint assoc (k : string) (props : list (string * json)) : option json :=
  match props with
  | [] => None
  | (k', v) :: rest => if String.eqb k k' then Some v else assoc k rest
  end.

Definition getProp (k : string) (o : json) : option json :=
  match o with
  | JObj props => assoc k props
  | _ => None
  end.

End Json.
Import Json.

(** ** Errors *)

Inductive Error : Type :=
| InvalidSearchParameterError (message : string).

(** A call either returns a value or throws. *)
Inductive Result (A : Type) : Type :=
| Return (a : A)
| Throw (e : Error).
Arguments Return {A} a.
Arguments Throw {A} e.

Definition bind {A B : Type} (r : Result A) (k : A -> Result B) : Result B :=
  match r with
  | Return a => k a
  | Throw e => Throw e
  end.

Notation "x <- c ;; k" := (bind c (fun x => k))
  (at level 61, c at next level, right associativity).
Notation "'_' <- c ;; k" := (bind c (fun _ => k))
  (at level 61, c at next level, right associativity).

(** ** tokenQuery.ts *)

Module TokenQuery.

(** Modelled from the spec: [CompiledSearchParam] is declared in
    FHIRSearchParametersRegistry, which is not part of the sources at hand;
    [tokenQuery] reads its [path] only. *)
Record CompiledSearchParam : Type := { path : string }.

(** Modelled from the spec: [TokenSearchValue] is declared in FhirQueryParser:
    [{system?: string, code?: string, explicitNoSystemProperty?: bool}].
    An absent property is [None]. *)
Record TokenSearchValue : Type := {
  system : option string;
  code : option string;
  explicitNoSystemProperty : option bool
}.

Definition FIELDS_WITHOUT_KEYWORD : list string := ["id"].
Definition SUPPORTED_MODIFIERS : list string := [].

(** [Array.prototype.includes] on an array of strings. *)
Definition includes (l : list string) (s : string) : bool :=
  existsb (String.eqb s) l.

(** Truthiness of an optional string: [undefined] and [''] are falsy. *)
Definition truthyString (o : option string) : bool :=
  match o with
  | Some s => negb (String.eqb s "")
  | None => false
  end.

(** Truthiness of an optional boolean. *)
Definition truthyFlag (o : option bool) : bool :=
  match o with
  | Some b => b
  | None => false
  end.

(** [queries.push(q)] *)
Definition push (queries : list json) (q : json) : list json :=
  (queries ++ [q])%list.

(** [{ multi_match: { fields, query, lenient: true } }] *)
Definition multiMatch (fields : list string) (query : string) : json :=
  JObj [("multi_match",
         JObj [("fields", JArr (map JStr fields));
               ("query", JStr query);
               ("lenient", JBool true)])].

(** [{ bool: { must: { term: { intent: v } } } }] *)
Definition intentTerm (v : string) : json :=
  JObj [("bool", JObj [("must", JObj [("term", JObj [("intent", JStr v)])])])].

(** [{ bool: { must_not: { exists: { field } } } }] *)
Definition mustNotExists (field : string) : json :=
  JObj [("bool", JObj [("must_not", JObj [("exists", JObj [("field", JStr field)])])])].

(** [{ bool: { must: queries } }] *)
Definition boolMust (queries : list json) : json :=
  JObj [("bool", JObj [("must", JArr queries)])].

Definition useKeywordSuffixOf (compiled : CompiledSearchParam)
    (useKeywordSubFields : bool) : bool :=
  useKeywordSubFields && negb (includes FIELDS_WITHOUT_KEYWORD (path compiled)).

Definition keywordSuffixOf (compiled : CompiledSearchParam)
    (useKeywordSubFields : bool) : string :=
  if useKeywordSuffixOf compiled useKeywordSubFields then ".keyword" else "".

(** The array [queries] as it stands at line 119, after the three [if]
    blocks have pushed their clauses. *)
Definition queriesOf (compiled : CompiledSearchParam) (value : TokenSearchValue)
    (useKeywordSubFields : bool) : list json :=
  let queries : list json := [] in
  let useKeywordSuffix := useKeywordSuffixOf compiled useKeywordSubFields in
  let keywordSuffix := keywordSuffixOf compiled useKeywordSubFields in
  let queries :=
    match system value with
    | Some system =>
        let fields :=
          [ path compiled ++ ".system" ++ keywordSuffix;
            path compiled ++ ".coding.system" ++ keywordSuffix ] in
        push queries (multiMatch fields system)
    | None => queries
    end in
  let queries :=
    match code value with
    | Some code =>
        let fields :=
          [ path compiled ++ ".code" ++ keywordSuffix;
            path compiled ++ ".coding.code" ++ keywordSuffix;
            path compiled ++ ".value" ++ keywordSuffix;
            path compiled ++ keywordSuffix ] in
        let fields :=
          if useKeywordSuffix then (fields ++ [path compiled])%list else fields in
        if String.eqb (path compiled) "intent" && String.eqb code "order" then
          push queries (intentTerm "order")
        else if String.eqb (path compiled) "intent"
                && String.eqb code "original-order" then
          push queries (intentTerm "original-order")
        else
          push queries (multiMatch fields code)
    | None => queries
    end in
  let queries :=
    if truthyFlag (explicitNoSystemProperty value) then
      push queries (mustNotExists (path compiled ++ ".system"))
    else queries in
  queries.

(** Lines 24-26: a truthy modifier outside [SUPPORTED_MODIFIERS] throws. *)
Definition checkModifier (modifier : option string) : Result unit :=
  match modifier with
  | Some m =>
      if negb (String.eqb m "") && negb (includes SUPPORTED_MODIFIERS m) then
        Throw (InvalidSearchParameterError
                 ("Unsupported token search modifier: " ++ m))
      else Return tt
  | None => Return tt
  end.

Definition tokenQuery (compiled : CompiledSearchParam) (value : TokenSearchValue)
    (useKeywordSubFields : bool) (modifier : option string) : Result json :=
  _ <- checkModifier modifier ;;
  let queries := queriesOf compiled value useKeywordSubFields in
  if Nat.eqb (length queries) 1 then
    Return (nth 0 queries JNull)
  else
    let returnObj := boolMust queries in
    Return returnObj.

(** *** Vocabulary of the statements *)

(** A token value cut down to one of its three components. *)
Definition systemOnly (value : TokenSearchValue) : TokenSearchValue :=
  {| system := system value; code := None; explicitNoSystemProperty := None |}.

Definition codeOnly (value : TokenSearchValue) : TokenSearchValue :=
  {| system := None; code := code value; explicitNoSystemProperty := None |}.

Definition flagOnly (value : TokenSearchValue) : TokenSearchValue :=
  {| system := None; code := None;
     explicitNoSystemProperty := explicitNoSystemProperty value |}.

(** The (path, code) pairs answered by a term clause on [intent]. *)
Definition overridden (compiled : CompiledSearchParam) (c : string) : Prop :=
  path compiled = "intent" /\ (c = "order" \/ c = "original-order").

(** The four candidate fields of a code, with the suffix in force. *)
Definition fourCandidates (compiled : CompiledSearchParam)
    (useKeywordSubFields : bool) : list string :=
  [ path compiled ++ ".code" ++ keywordSuffixOf compiled useKeywordSubFields;
    path compiled ++ ".coding.code" ++ keywordSuffixOf compiled useKeywordSubFields;
    path compiled ++ ".value" ++ keywordSuffixOf compiled useKeywordSubFields;
    path compiled ++ keywordSuffixOf compiled useKeywordSubFields ].

(** The field list read literally: the bare path comes fifth whenever
    [useKeywordSubFields] is true. *)
Definition fieldsWhenFlagSet (compiled : CompiledSearchParam)
    (useKeywordSubFields : bool) : list string :=
  (fourCandidates compiled useKeywordSubFields
   ++ (if useKeywordSubFields then [path compiled] else []))%list.

(** The field list with the bare path fifth whenever the suffix is in force:
    [useKeywordSubFields] is true and the path is not excluded. *)
Definition fieldsWhenSuffixed (compiled : CompiledSearchParam)
    (useKeywordSubFields : bool) : list string :=
  (fourCandidates compiled useKeywordSubFields
   ++ (if useKeywordSuffixOf compiled useKeywordSubFields
       then [path compiled] else []))%list.

(** The code component is a multi-field match over [fields]. *)
Definition codeMatchesOver
    (fields : CompiledSearchParam -> bool -> list string)
    (compiled : CompiledSearchParam) (value : TokenSearchValue)
    (useKeywordSubFields : bool) : Prop :=
  forall c, code value = Some c -> ~ overridden compiled c ->
    queriesOf compiled value useKeywordSubFields
    = (queriesOf compiled (systemOnly value) useKeywordSubFields
       ++ [multiMatch (fields compiled useKeywordSubFields) c]
       ++ queriesOf compiled (flagOnly value) useKeywordSubFields)%list.

(** Elasticsearch reads the array under [bool.must] as a conjunction: a
    document matches when it matches every clause of the array, whatever the
    reading [matchesClause] of a single clause is. *)
Definition matchesMust {R : Type} (matchesClause : json -> R -> bool)
    (clauses : list json) (resource : R) : bool :=
  forallb (fun q => matchesClause q resource) clauses.

End TokenQuery.

(** ** StreamSubscriptionMatcher.ts *)

Module Lodash.

(** [chunk(array, size)] of lodash: the elements of [array] split into groups
    of length [size], the last group holding the remaining elements; the
    result is empty when [array] is empty or [size < 1]. *)
Equations? chunk {A : Type} (array : list A) (size : nat) : list (list A)
  by wf (length array) lt :=
  chunk [] _ := [];
  chunk (_ :: _) 0 := [];
  chunk (x :: xs) (S k) := firstn (S k) (x :: xs) :: chunk (skipn (S k) (x :: xs)) (S k).
Proof.
  simpl. pose proof (length_skipn k xs). lia.
Qed.

End Lodash.

Module StreamSubscriptionMatcher.
Import Lodash.

Definition SNS_MAX_BATCH_SIZE : nat := 10.

(** Strict equality [subscription.tenantId === resource._tenantId] of an
    optional string with an arbitrary property value: [undefined] equals
    [undefined] only, a string equals the same string only. *)
Definition strictEq (a : option string) (b : option json) : bool :=
  match a, b with
  | None, None => true
  | Some s, Some (JStr t) => String.eqb s t
  | _, _ => false
  end.

(** The value a tenant id has as a property of a resource. *)
Definition tenantValue (a : option string) : option json := option_map JStr a.

(** The id generator [v4()] is stateful: the [n]-th call of a run returns the
    [n]-th id of the run.  [Gen] threads the number of ids drawn so far. *)
Definition Gen (A : Type) : Type := nat -> A * nat.

Definition ret {A : Type} (a : A) : Gen A := fun n => (a, n).

Definition gbind {A B : Type} (g : Gen A) (k : A -> Gen B) : Gen B :=
  fun n => let (a, n') := g n in k a n'.

(** [array.map(f)] with a callback that draws ids, left to right. *)
Fixpoint mapGen {A B : Type} (f : A -> Gen B) (l : list A) : Gen (list B) :=
  match l with
  | [] => ret []
  | x :: xs => gbind (f x) (fun y => gbind (mapGen f xs) (fun ys => ret (y :: ys)))
  end.

Record PublishBatchRequestEntry : Type := {
  Id : string;
  Message : string;
  MessageAttributes_channelType_StringValue : string
}.

Record PublishBatchCommand : Type := {
  PublishBatchRequestEntries : list PublishBatchRequestEntry;
  TopicArn : string
}.

Section Matcher.

(** Modelled from the spec: [ParsedFhirQueryParams] and
    [matchParsedFhirQueryParams] live in FhirQueryParser and InMemoryMatcher,
    [SubscriptionNotification] and [buildNotification] in subscriptions; none
    of them is part of the sources at hand.  The criteria's in-memory
    evaluator and the notification builder are taken as given. *)
Variable ParsedFhirQueryParams : Type.
Variable matchParsedFhirQueryParams : ParsedFhirQueryParams -> json -> bool.
Variable SubscriptionNotification : Type.

(** Modelled from the spec: [Subscription] is declared in subscriptions;
    the matcher reads [tenantId] and [parsedCriteria]. *)
Record Subscription : Type := {
  subscriptionId : string;
  tenantId : option string;
  parsedCriteria : ParsedFhirQueryParams;
  channelType : string;
  endpoint : string
}.

Variable buildNotification : Subscription -> json -> SubscriptionNotification.
(** [JSON.stringify] on a notification and its [channelType] property. *)
Variable stringify : SubscriptionNotification -> string.
Variable notificationChannelType : SubscriptionNotification -> string.
(** [v4 n] is the [n]-th id drawn in a run. *)
Variable v4 : nat -> string.

Definition matchSubscription (subscription : Subscription) (resource : json) : bool :=
  strictEq (tenantId subscription) (getProp "_tenantId" resource)
  && matchParsedFhirQueryParams (parsedCriteria subscription) resource.

(** Lines 106-110: the notifications of one match cycle. *)
Definition subscriptionNotifications (activeSubscriptions : list Subscription)
    (eligibleResources : list json) : list SubscriptionNotification :=
  flat_map
    (fun subscription =>
       map (fun resource => buildNotification subscription resource)
           (filter (fun resource => matchSubscription subscription resource)
                   eligibleResources))
    activeSubscriptions.

Definition drawId : Gen string := fun n => (v4 n, S n).

(** Lines 124-133: the command built for one batch. *)
Definition batchCommand (topicArn : string)
    (subscriptionNotificationBatch : list SubscriptionNotification)
    : Gen PublishBatchCommand :=
  gbind
    (mapGen
       (fun subscriptionNotification =>
          gbind drawId (fun id =>
          ret {| Id := id;
                 Message := stringify subscriptionNotification;
                 MessageAttributes_channelType_StringValue :=
                   notificationChannelType subscriptionNotification |}))
       subscriptionNotificationBatch)
    (fun entries =>
       ret {| PublishBatchRequestEntries := entries; TopicArn := topicArn |}).

(** Lines 122-136: the commands handed to [snsClient.send], in the order the
    [map] callback issues them; [Promise.all] awaits them together. *)
Definition publish (topicArn : string)
    (notifications : list SubscriptionNotification) : Gen (list PublishBatchCommand) :=
  mapGen (batchCommand topicArn) (chunk notifications SNS_MAX_BATCH_SIZE).

(** [StreamSubscriptionMatcher.match], from the eligible resources and the
    cached active subscriptions on: the publish calls it makes. *)
Definition match_ (topicArn : string) (activeSubscriptions : list Subscription)
    (eligibleResources : list json) : Gen (list PublishBatchCommand) :=
  publish topicArn (subscriptionNotifications activeSubscriptions eligibleResources).

End Matcher.

Arguments subscriptionId {ParsedFhirQueryParams} _.
Arguments tenantId {ParsedFhirQueryParams} _.
Arguments parsedCriteria {ParsedFhirQueryParams} _.
Arguments channelType {ParsedFhirQueryParams} _.
Arguments endpoint {ParsedFhirQueryParams} _.
Arguments matchSubscription {ParsedFhirQueryParams} _ _ _.
Arguments subscriptionNotifications {ParsedFhirQueryParams} _ {SubscriptionNotification} _ _ _.
Arguments drawId _ _ : clear implicits.
Arguments batchCommand {SubscriptionNotification} _ _ _ _ _.
Arguments publish {SubscriptionNotification} _ _ _ _ _.
Arguments match_ {ParsedFhirQueryParams} _ {SubscriptionNotification} _ _ _ _ _ _ _.

End StreamSubscriptionMatcher.

(** ** elasticSearch.js *)

Module ElasticSearchClient.

(** [process.env]: a variable that is not set reads [undefined]. *)
Definition Env : Type := string -> option string.

(** [v || fallback] on an optional string: [undefined] and [''] are falsy. *)
Definition orElse (v : option string) (fallback : string) : string :=
  match v with
  | Some s => if String.eqb s "" then fallback else s
  | None => fallback
  end.

(** [v === 'true'] *)
Definition isTrueLiteral (v : option string) : bool :=
  match v with
  | Some s => String.eqb s "true"
  | None => false
  end.

(** The argument of [AWS.config.update]. *)
Record ConfigUpdate : Type := {
  region : string;
  accessKeyId : option string;
  secretAccessKey : option string
}.

(** What loading the module does: the update made to the AWS configuration,
    if any, and the [node] the client is built with. *)
Record Loaded : Type := {
  configUpdate : option ConfigUpdate;
  node : string
}.

Definition load (env : Env) : Loaded :=
  let IS_OFFLINE := env "IS_OFFLINE" in
  let esDomainEndpoint :=
    orElse (env "ELASTICSEARCH_DOMAIN_ENDPOINT") "https://fake-es-endpoint.com" in
  if isTrueLiteral IS_OFFLINE then
    let update :=
      {| region := orElse (env "AWS_REGION") "us-west-2";
         accessKeyId := env "ACCESS_KEY";
         secretAccessKey := env "SECRET_KEY" |} in
    let esDomainEndpoint :=
      orElse (env "OFFLINE_ELASTICSEARCH_DOMAIN_ENDPOINT")
             "https://fake-es-endpoint.com" in
    {| configUpdate := Some update; node := esDomainEndpoint |}
  else
    {| configUpdate := None; node := esDomainEndpoint |}.

End ElasticSearchClient.

(** ** Vocabulary of the further statements *)

Module Shapes.
Import TokenQuery StreamSubscriptionMatcher.

(** How many of the three components of a token value are present: a system,
    a code, a truthy no-system flag. *)
Definition componentCount (value : TokenSearchValue) : nat :=
  (match system value with Some _ => 1 | None => 0 end)
  + (match code value with Some _ => 1 | None => 0 end)
  + (if truthyFlag (explicitNoSystemProperty value) then 1 else 0).

(** The property names of an object, in order. *)
Definition keysOf (q : json) : list string :=
  match q with
  | JObj props => map fst props
  | _ => []
  end.

(** The ids, the messages and the channel types of a command's entries. *)
Definition idsOf (command : PublishBatchCommand) : list string :=
  map Id (PublishBatchRequestEntries command).

Definition messagesOf (command : PublishBatchCommand) : list string :=
  map Message (PublishBatchRequestEntries command).

Definition channelTypesOf (command : PublishBatchCommand) : list string :=
  map MessageAttributes_channelType_StringValue (PublishBatchRequestEntries command).

End Shapes.

(** * Properties of tokenQuery *)

Import TokenQuery.

Lemma checkModifier_falsy (modifier : option string) :
  truthyString modifier = false -> checkModifier modifier = Return tt.
Proof.
  destruct modifier as [m|]; simpl; [|reflexivity].
  intros H. rewrite H. reflexivity.
Qed.

Lemma checkModifier_truthy (m : string) :
  m <> "" ->
  checkModifier (Some m)
  = Throw (InvalidSearchParameterError ("Unsupported token search modifier: " ++ m)).
Proof.
  intros H. unfold checkModifier.
  destruct (String.eqb_spec m ""); [contradiction|]. reflexivity.
Qed.

(** The three [if] blocks push independently of one another. *)
Lemma queriesOf_split compiled value u :
  queriesOf compiled value u
  = (queriesOf compiled (systemOnly value) u
     ++ queriesOf compiled (codeOnly value) u
     ++ queriesOf compiled (flagOnly value) u)%list.
Proof.
  destruct value as [s c f]. unfold queriesOf, systemOnly, codeOnly, flagOnly, push.
  cbn [system code explicitNoSystemProperty truthyFlag].
  destruct s, c, f as [[|]|]; cbn [truthyFlag app];
    repeat match goal with
      | |- context [if ?b then _ else _] => destruct b
      end; reflexivity.
Qed.

Lemma queriesOf_codeOnly_override compiled value u c :
  code value = Some c -> overridden compiled c ->
  queriesOf compiled (codeOnly value) u = [intentTerm c].
Proof.
  intros Hc [Hp Ho]. unfold queriesOf, codeOnly, push.
  cbn [system code explicitNoSystemProperty truthyFlag]. rewrite Hc, Hp.
  destruct Ho as [-> | ->]; reflexivity.
Qed.

Lemma queriesOf_codeOnly_plain compiled value u c :
  code value = Some c -> ~ overridden compiled c ->
  queriesOf compiled (codeOnly value) u = [multiMatch (fieldsWhenSuffixed compiled u) c].
Proof.
  intros Hc Hn. unfold queriesOf, codeOnly, push, overridden in *.
  cbn [system code explicitNoSystemProperty truthyFlag]. rewrite Hc.
  destruct (String.eqb_spec (path compiled) "intent") as [Hp|Hp]; cbn [andb].
  - destruct (String.eqb_spec c "order") as [Ho|Ho]; [tauto|].
    destruct (String.eqb_spec c "original-order") as [Ho'|Ho']; [tauto|].
    unfold fieldsWhenSuffixed, fourCandidates.
    destruct (useKeywordSuffixOf compiled u); reflexivity.
  - unfold fieldsWhenSuffixed, fourCandidates.
    destruct (useKeywordSuffixOf compiled u); reflexivity.
Qed.

Lemma queriesOf_no_system compiled value u :
  system value = None -> queriesOf compiled (systemOnly value) u = [].
Proof. intros H. unfold queriesOf, systemOnly. cbn. rewrite H. reflexivity. Qed.

Lemma queriesOf_no_flag compiled value u :
  truthyFlag (explicitNoSystemProperty value) = false ->
  queriesOf compiled (flagOnly value) u = [].
Proof. intros H. unfold queriesOf, flagOnly. cbn. rewrite H. reflexivity. Qed.

(** Past the modifier check, a single clause is returned as it is. *)
Lemma tokenQuery_single compiled value u modifier q :
  truthyString modifier = false ->
  queriesOf compiled value u = [q] ->
  tokenQuery compiled value u modifier = Return q.
Proof.
  intros Hm Hq. unfold tokenQuery. rewrite (checkModifier_falsy _ Hm).
  cbn [bind]. rewrite Hq. reflexivity.
Qed.

(** Past the modifier check, any other number of clauses is wrapped. *)
Lemma tokenQuery_wrapped compiled value u modifier :
  truthyString modifier = false ->
  length (queriesOf compiled value u) <> 1 ->
  tokenQuery compiled value u modifier
  = Return (boolMust (queriesOf compiled value u)).
Proof.
  intros Hm Hq. unfold tokenQuery. rewrite (checkModifier_falsy _ Hm).
  cbn [bind]. destruct (Nat.eqb_spec (length (queriesOf compiled value u)) 1);
    [contradiction|reflexivity].
Qed.

(** C1: when the path is [intent] and the code is [order] (likewise
    [original-order]), the clause pushed for the code is the single term
    equality [{bool: {must: {term: {intent: code}}}}]: it stands between the
    clause of the system and the clause of the no-system flag, it is no
    multi-field match, and it is the whole result when the code is the only
    component of the value. *)
Theorem tokenQuery_intent_override compiled value u c :
  path compiled = "intent" ->
  c = "order" \/ c = "original-order" ->
  code value = Some c ->
  queriesOf compiled value u
  = (queriesOf compiled (systemOnly value) u
     ++ [JObj [("bool", JObj [("must", JObj [("term", JObj [("intent", JStr c)])])])]]
     ++ queriesOf compiled (flagOnly value) u)%list
  /\ (forall fields q,
        JObj [("bool", JObj [("must", JObj [("term", JObj [("intent", JStr c)])])])]
        <> multiMatch fields q)
  /\ (forall modifier,
        system value = None ->
        truthyFlag (explicitNoSystemProperty value) = false ->
        truthyString modifier = false ->
        tokenQuery compiled value u modifier
        = Return (JObj [("bool",
                         JObj [("must", JObj [("term", JObj [("intent", JStr c)])])])])).
Proof.
  intros Hp Ho Hc.
  assert (Hq : queriesOf compiled (codeOnly value) u = [intentTerm c])
    by (apply queriesOf_codeOnly_override; [assumption | split; assumption]).
  split; [|split].
  - rewrite queriesOf_split at 1. rewrite Hq. reflexivity.
  - intros fields q. unfold multiMatch. discriminate.
  - intros modifier Hs Hf Hm. apply tokenQuery_single; [assumption|].
    rewrite queriesOf_split, Hq, (queriesOf_no_system _ _ _ Hs),
      (queriesOf_no_flag _ _ _ Hf). reflexivity.
Qed.

Lemma tokenQuery_intent_override_witness :
  tokenQuery {| path := "intent" |}
    {| system := None; code := Some "original-order";
       explicitNoSystemProperty := None |} true None
  = Return (JObj [("bool",
                   JObj [("must",
                          JObj [("term", JObj [("intent", JStr "original-order")])])])]).
Proof.
  exact (proj2 (proj2 (tokenQuery_intent_override {| path := "intent" |}
           {| system := None; code := Some "original-order";
              explicitNoSystemProperty := None |} true "original-order"
           eq_refl (or_intror eq_refl) eq_refl))
         None eq_refl eq_refl eq_refl).
Defined.

(** C2, as written, fails on the excluded path [id]: with
    [useKeywordSubFields] true no suffix is in force there, and the bare path
    is not pushed a second time; the field list has four entries. *)
Lemma code_fields_flag_reading_fails :
  ~ codeMatchesOver fieldsWhenFlagSet {| path := "id" |}
      {| system := None; code := Some "abc"; explicitNoSystemProperty := None |}
      true.
Proof.
  intros H. specialize (H "abc" eq_refl).
  assert (Hn : ~ overridden {| path := "id" |} "abc")
    by (intros [Hp _]; discriminate Hp).
  specialize (H Hn). vm_compute in H. discriminate H.
Qed.

(** C2, amended: a code outside the override table is answered by a
    multi-field match, lenient, over the four candidates [path.code],
    [path.coding.code], [path.value] and the bare path, each with the suffix
    in force; the un-suffixed bare path comes fifth exactly when the suffix is
    in force, that is when [useKeywordSubFields] is true and the path is not
    on the exclusion list. *)
Theorem tokenQuery_code_fields compiled value u c :
  code value = Some c ->
  ~ overridden compiled c ->
  queriesOf compiled value u
  = (queriesOf compiled (systemOnly value) u
     ++ [JObj [("multi_match",
                JObj [("fields",
                       JArr (map JStr
                         (List.app
                            [ (path compiled ++ ".code" ++ keywordSuffixOf compiled u)%string;
                              (path compiled ++ ".coding.code" ++ keywordSuffixOf compiled u)%string;
                              (path compiled ++ ".value" ++ keywordSuffixOf compiled u)%string;
                              (path compiled ++ keywordSuffixOf compiled u)%string ]
                            (if u && negb (includes FIELDS_WITHOUT_KEYWORD (path compiled))
                             then [path compiled] else []))));
                      ("query", JStr c);
                      ("lenient", JBool true)])]]
     ++ queriesOf compiled (flagOnly value) u)%list
  /\ codeMatchesOver fieldsWhenSuffixed compiled value u
  /\ (keywordSuffixOf compiled u
      = if u && negb (includes FIELDS_WITHOUT_KEYWORD (path compiled))
        then ".keyword" else "").
Proof.
  intros Hc Hn. split; [|split].
  - rewrite queriesOf_split at 1.
    rewrite (queriesOf_codeOnly_plain _ _ _ _ Hc Hn). reflexivity.
  - intros c' Hc' Hn'. rewrite queriesOf_split at 1.
    rewrite (queriesOf_codeOnly_plain _ _ _ _ Hc' Hn'). reflexivity.
  - reflexivity.
Qed.

Lemma tokenQuery_code_fields_witness :
  queriesOf {| path := "active" |}
    {| system := None; code := Some "true"; explicitNoSystemProperty := None |} true
  = [JObj [("multi_match",
            JObj [("fields",
                   JArr [JStr "active.code.keyword"; JStr "active.coding.code.keyword";
                         JStr "active.value.keyword"; JStr "active.keyword";
                         JStr "active"]);
                  ("query", JStr "true");
                  ("lenient", JBool true)])]].
Proof.
  refine (proj1 (tokenQuery_code_fields {| path := "active" |}
           {| system := None; code := Some "true"; explicitNoSystemProperty := None |}
           true "true" eq_refl _)).
  intros [Hp _]. discriminate Hp.
Defined.

(** What the code returns on the excluded path: four fields, none suffixed. *)
Example tokenQuery_code_on_id :
  tokenQuery {| path := "id" |}
    {| system := None; code := Some "abc"; explicitNoSystemProperty := None |}
    true None
  = Return (JObj [("multi_match",
                   JObj [("fields",
                          JArr [JStr "id.code"; JStr "id.coding.code";
                                JStr "id.value"; JStr "id"]);
                         ("query", JStr "abc");
                         ("lenient", JBool true)])]).
Proof. reflexivity. Qed.

(** C5: when the system is the only component of the value (no code, the
    no-system flag absent or false) and the modifier check is passed, the
    result is one multi-field match, not wrapped, over exactly [path.system]
    and [path.coding.system] with the suffix in force, with [lenient: true]. *)
Theorem tokenQuery_system_only compiled s flag u modifier :
  truthyFlag flag = false ->
  truthyString modifier = false ->
  tokenQuery compiled
    {| system := Some s; code := None; explicitNoSystemProperty := flag |}
    u modifier
  = Return (JObj [("multi_match",
                   JObj [("fields",
                          JArr [JStr (path compiled ++ ".system"
                                      ++ keywordSuffixOf compiled u);
                                JStr (path compiled ++ ".coding.system"
                                      ++ keywordSuffixOf compiled u)]);
                         ("query", JStr s);
                         ("lenient", JBool true)])]).
Proof.
  intros Hf Hm. apply tokenQuery_single; [assumption|].
  unfold queriesOf. cbn [system code explicitNoSystemProperty].
  rewrite Hf. reflexivity.
Qed.

Lemma tokenQuery_system_only_witness :
  tokenQuery {| path := "identifier" |}
    {| system := Some "http://example.org"; code := None;
       explicitNoSystemProperty := None |} true None
  = Return (JObj [("multi_match",
                   JObj [("fields",
                          JArr [JStr "identifier.system.keyword";
                                JStr "identifier.coding.system.keyword"]);
                         ("query", JStr "http://example.org");
                         ("lenient", JBool true)])]).
Proof.
  exact (tokenQuery_system_only {| path := "identifier" |} "http://example.org"
           None true None eq_refl eq_refl).
Defined.

(** C6: whatever the parameter, the value and the flag, a non-empty modifier
    makes [tokenQuery] throw [InvalidSearchParameterError], the set of
    supported modifiers being empty; no query is returned. *)
Theorem tokenQuery_modifier_rejected compiled value u m :
  m <> "" ->
  tokenQuery compiled value u (Some m)
  = Throw (InvalidSearchParameterError ("Unsupported token search modifier: " ++ m))
  /\ (forall q, tokenQuery compiled value u (Some m) <> Return q)
  /\ SUPPORTED_MODIFIERS = [].
Proof.
  intros Hm.
  assert (H : tokenQuery compiled value u (Some m)
              = Throw (InvalidSearchParameterError
                         ("Unsupported token search modifier: " ++ m))).
  { unfold tokenQuery. rewrite (checkModifier_truthy _ Hm). reflexivity. }
  split; [exact H|split; [|reflexivity]].
  intros q Hq. rewrite H in Hq. discriminate Hq.
Qed.

Lemma tokenQuery_modifier_rejected_witness :
  tokenQuery {| path := "identifier" |}
    {| system := Some "s"; code := Some "c"; explicitNoSystemProperty := None |}
    false (Some "not")
  = Throw (InvalidSearchParameterError "Unsupported token search modifier: not").
Proof.
  refine (proj1 (tokenQuery_modifier_rejected {| path := "identifier" |}
           {| system := Some "s"; code := Some "c"; explicitNoSystemProperty := None |}
           false "not" _)).
  discriminate.
Defined.

(** C7: when [explicitNoSystemProperty] is true and neither system nor code
    is given, the result (past the modifier check) is the single clause
    [{bool: {must_not: {exists: {field: path.system}}}}]; the field carries
    no suffix. *)
Theorem tokenQuery_no_system_flag compiled u modifier :
  truthyString modifier = false ->
  tokenQuery compiled
    {| system := None; code := None; explicitNoSystemProperty := Some true |}
    u modifier
  = Return (JObj [("bool",
                   JObj [("must_not",
                          JObj [("exists",
                                 JObj [("field",
                                        JStr (path compiled ++ ".system"))])])])]).
Proof.
  intros Hm. apply tokenQuery_single; [assumption|reflexivity].
Qed.

Lemma tokenQuery_no_system_flag_witness :
  tokenQuery {| path := "identifier" |}
    {| system := None; code := None; explicitNoSystemProperty := Some true |}
    true (Some "")
  = Return (JObj [("bool",
                   JObj [("must_not",
                          JObj [("exists",
                                 JObj [("field", JStr "identifier.system")])])])]).
Proof.
  exact (tokenQuery_no_system_flag {| path := "identifier" |} true (Some "") eq_refl).
Defined.

(** C8: past the modifier check, when the three blocks produced exactly one
    clause the result is that clause itself; when they produced more than one
    the result is [{bool: {must: queries}}] holding all of them in order. *)
Theorem tokenQuery_combine compiled value u modifier :
  truthyString modifier = false ->
  (forall q, queriesOf compiled value u = [q] ->
     tokenQuery compiled value u modifier = Return q)
  /\ (1 < length (queriesOf compiled value u) ->
      tokenQuery compiled value u modifier
      = Return (JObj [("bool",
                       JObj [("must", JArr (queriesOf compiled value u))])])).
Proof.
  intros Hm. split.
  - intros q Hq. apply tokenQuery_single; assumption.
  - intros Hl. apply tokenQuery_wrapped; [assumption|lia].
Qed.

Lemma tokenQuery_combine_witness :
  tokenQuery {| path := "code" |}
    {| system := Some "s"; code := None; explicitNoSystemProperty := None |}
    false None
  = Return (JObj [("multi_match",
                   JObj [("fields", JArr [JStr "code.system"; JStr "code.coding.system"]);
                         ("query", JStr "s");
                         ("lenient", JBool true)])])
  /\ tokenQuery {| path := "code" |}
       {| system := Some "s"; code := None; explicitNoSystemProperty := Some true |}
       false None
     = Return (JObj [("bool",
                      JObj [("must",
                             JArr [JObj [("multi_match",
                                          JObj [("fields",
                                                 JArr [JStr "code.system";
                                                       JStr "code.coding.system"]);
                                                ("query", JStr "s");
                                                ("lenient", JBool true)])];
                                   JObj [("bool",
                                          JObj [("must_not",
                                                 JObj [("exists",
                                                        JObj [("field",
                                                               JStr "code.system")])])])]])])]).
Proof.
  split.
  - exact (proj1 (tokenQuery_combine {| path := "code" |}
             {| system := Some "s"; code := None; explicitNoSystemProperty := None |}
             false None eq_refl) _ eq_refl).
  - refine (proj2 (tokenQuery_combine {| path := "code" |}
             {| system := Some "s"; code := None;
                explicitNoSystemProperty := Some true |}
             false None eq_refl) _).
    simpl. lia.
Defined.

(** C10: with no system, no code and the no-system flag absent or false,
    [tokenQuery] (past the modifier check) throws nothing: no clause is
    produced and the result is the empty conjunction [{bool: {must: []}}],
    which every resource satisfies, a conjunction of no clauses holding of
    anything. *)
Theorem tokenQuery_empty_value compiled flag u modifier :
  truthyFlag flag = false ->
  truthyString modifier = false ->
  queriesOf compiled
    {| system := None; code := None; explicitNoSystemProperty := flag |} u = []
  /\ tokenQuery compiled
       {| system := None; code := None; explicitNoSystemProperty := flag |}
       u modifier
     = Return (JObj [("bool", JObj [("must", JArr [])])])
  /\ (forall (R : Type) (matchesClause : json -> R -> bool) (resource : R),
        matchesMust matchesClause
          (queriesOf compiled
             {| system := None; code := None; explicitNoSystemProperty := flag |} u)
          resource = true).
Proof.
  intros Hf Hm.
  assert (Hq : queriesOf compiled
                 {| system := None; code := None; explicitNoSystemProperty := flag |} u
               = []).
  { unfold queriesOf. cbn [system code explicitNoSystemProperty].
    rewrite Hf. reflexivity. }
  split; [exact Hq|split].
  - rewrite tokenQuery_wrapped; [rewrite Hq; reflexivity|assumption|].
    rewrite Hq. discriminate.
  - intros R mc r. rewrite Hq. reflexivity.
Qed.

Lemma tokenQuery_empty_value_witness :
  tokenQuery {| path := "status" |}
    {| system := None; code := None; explicitNoSystemProperty := Some false |}
    true None
  = Return (JObj [("bool", JObj [("must", JArr [])])]).
Proof.
  exact (proj1 (proj2 (tokenQuery_empty_value {| path := "status" |} (Some false)
                         true None eq_refl eq_refl))).
Defined.

(** * Properties of chunk *)

Import Lodash.
Local Open Scope nat_scope.

Section ChunkFacts.

Context {A : Type}.

Lemma chunk_concat (l : list A) (size : nat) :
  0 < size -> concat (chunk l size) = l.
Proof.
  funelim (chunk l size); intros Hs.
  - reflexivity.
  - lia.
  - simp chunk. cbn [concat].
    match goal with IH : _ -> concat _ = _ |- _ => rewrite IH by lia end.
    apply firstn_skipn.
Qed.

(** Batch sizes for [n] elements in groups of [size]: as many full groups as
    fit, then the remainder when there is one. *)
Lemma chunk_sizes (l : list A) (size : nat) :
  0 < size ->
  map (@length A) (chunk l size)
  = (repeat size (length l / size)
     ++ (if length l mod size =? 0 then [] else [length l mod size]))%list.
Proof.
  funelim (chunk l size); intros Hs.
  - cbn [map length]. rewrite Nat.Div0.div_0_l, Nat.Div0.mod_0_l. reflexivity.
  - lia.
  - simp chunk. cbn [map].
    match goal with IH : _ -> map _ _ = _ |- _ => rewrite IH by lia end.
    rewrite length_firstn, length_skipn.
    set (n := length (x :: xs)). set (d := S k).
    destruct (Nat.lt_ge_cases n d) as [Hlt|Hge].
    + rewrite Nat.min_r by lia.
      replace (n - d) with 0 by lia.
      rewrite Nat.Div0.div_0_l, Nat.Div0.mod_0_l.
      rewrite (Nat.div_small n d), (Nat.mod_small n d) by assumption.
      cbn [repeat app Nat.eqb].
      destruct (Nat.eqb_spec n 0) as [Hn|Hn]; [|reflexivity].
      subst n. cbn [length] in Hn. discriminate Hn.
    + rewrite Nat.min_l by lia.
      assert (Hn : n = (n - d) + 1 * d) by lia.
      assert (Hdiv : n / d = S ((n - d) / d))
        by (rewrite Hn at 1; rewrite Nat.div_add by lia; lia).
      assert (Hmod : n mod d = (n - d) mod d)
        by (rewrite Hn at 1; apply Nat.Div0.mod_add).
      rewrite Hdiv, Hmod. reflexivity.
Qed.

Lemma chunk_bounds (l : list A) (size : nat) :
  0 < size -> Forall (fun b => 1 <= length b <= size) (chunk l size).
Proof.
  funelim (chunk l size); intros Hs.
  - constructor.
  - lia.
  - simp chunk. constructor.
    + rewrite length_firstn. cbn [length]. lia.
    + match goal with IH : _ -> Forall _ _ |- _ => apply IH; lia end.
Qed.

Lemma chunk_nonempty_inv (l : list A) (size : nat) :
  chunk l size <> [] -> l <> [].
Proof. intros H ->. apply H. simp chunk. reflexivity. Qed.

(** Every group but the last is full. *)
Lemma chunk_full_but_last (l : list A) (size : nat) :
  0 < size ->
  forall i, S i < length (chunk l size) -> length (nth i (chunk l size) []) = size.
Proof.
  funelim (chunk l size); intros Hs i Hi.
  - simp chunk in Hi. cbn in Hi. lia.
  - lia.
  - simp chunk in *. cbn [length] in Hi.
    destruct i as [|j].
    + cbn [nth]. rewrite length_firstn.
      assert (Hne : skipn (S k) (x :: xs) <> []).
      { apply (chunk_nonempty_inv _ (S k)). intros Hnil. rewrite Hnil in Hi.
        cbn in Hi. lia. }
      assert (Hlen : 0 < length (skipn (S k) (x :: xs))).
      { destruct (skipn (S k) (x :: xs)); [contradiction|cbn; lia]. }
      rewrite length_skipn in Hlen. lia.
    + cbn [nth].
      match goal with IH : _ -> forall i, _ -> _ = _ |- _ => apply IH; lia end.
Qed.

End ChunkFacts.

(** * Properties of the subscription matcher *)

Import StreamSubscriptionMatcher.

Lemma strictEq_spec (a : option string) (b : option json) :
  strictEq a b = true <-> tenantValue a = b.
Proof.
  destruct a as [s|], b as [[| |t| |]|]; cbn; split;
    try discriminate; try reflexivity.
  - intros H. apply String.eqb_eq in H. subst. reflexivity.
  - intros H. injection H as ->. apply String.eqb_refl.
Qed.

Section GenFacts.

Context {A B : Type}.

Lemma mapGen_cons (f : A -> Gen B) (x : A) (xs : list A) (n : nat) :
  mapGen f (x :: xs) n
  = (fst (f x n) :: fst (mapGen f xs (snd (f x n))),
     snd (mapGen f xs (snd (f x n)))).
Proof.
  cbn [mapGen]. unfold gbind, ret.
  destruct (f x n) as [y n']. cbn [fst snd].
  destruct (mapGen f xs n') as [ys n'']. reflexivity.
Qed.

(** One output per input, whatever ids are drawn. *)
Lemma mapGen_length (f : A -> Gen B) (l : list A) (n : nat) :
  length (fst (mapGen f l n)) = length l.
Proof.
  revert n. induction l as [|x xs IH]; intros n.
  - reflexivity.
  - rewrite mapGen_cons. cbn [fst length]. rewrite IH. reflexivity.
Qed.

(** A view of the outputs that does not depend on the ids drawn. *)
Lemma mapGen_view {C : Type} (f : A -> Gen B) (g : B -> C) (h : A -> C) :
  (forall x n, g (fst (f x n)) = h x) ->
  forall l n, map g (fst (mapGen f l n)) = map h l.
Proof.
  intros Hv l. induction l as [|x xs IH]; intros n.
  - reflexivity.
  - rewrite mapGen_cons. cbn [fst map]. rewrite Hv, IH. reflexivity.
Qed.

End GenFacts.

Section MatchFacts.

Variable ParsedFhirQueryParams : Type.
Variable matchParsedFhirQueryParams : ParsedFhirQueryParams -> json -> bool.
Variable SubscriptionNotification : Type.
Variable buildNotification :
  Subscription ParsedFhirQueryParams -> json -> SubscriptionNotification.

Local Abbreviation matches := (matchSubscription matchParsedFhirQueryParams).
Local Abbreviation notificationsOf :=
  (subscriptionNotifications matchParsedFhirQueryParams buildNotification).

Lemma matchSubscription_spec subscription resource :
  matches subscription resource = true
  <-> tenantValue (tenantId subscription) = getProp "_tenantId" resource
      /\ matchParsedFhirQueryParams (parsedCriteria subscription) resource = true.
Proof.
  unfold matchSubscription. rewrite andb_true_iff, strictEq_spec. reflexivity.
Qed.

Lemma notifications_of_one subscription resources :
  map (fun resource => buildNotification subscription resource)
      (filter (fun resource => matches subscription resource) resources)
  = map (fun p => buildNotification (fst p) (snd p))
        (filter (fun p => matches (fst p) (snd p))
                (map (pair subscription) resources)).
Proof.
  induction resources as [|r rs IH]; [reflexivity|].
  cbn [map filter fst snd]. destruct (matches subscription r); cbn [map fst snd];
    rewrite IH; reflexivity.
Qed.

Lemma notifications_as_pairs subscriptions resources :
  notificationsOf subscriptions resources
  = map (fun p => buildNotification (fst p) (snd p))
        (filter (fun p => matches (fst p) (snd p))
                (list_prod subscriptions resources)).
Proof.
  unfold subscriptionNotifications.
  induction subscriptions as [|s ss IH]; [reflexivity|].
  cbn [flat_map list_prod]. rewrite filter_app, map_app, IH, notifications_of_one.
  reflexivity.
Qed.

(** C4: a subscription matches a resource exactly when its tenant id equals
    the resource's [_tenantId] and its criteria hold of the resource; a
    resource of another tenant never matches; and the notifications of a cycle
    are, in order, one per pair (subscription, eligible resource) that
    matches: no pair is notified twice and none is left out. *)
Theorem match_iff_tenant_and_criteria subscriptions resources :
  (forall s r,
     matches s r = true
     <-> tenantValue (tenantId s) = getProp "_tenantId" r
         /\ matchParsedFhirQueryParams (parsedCriteria s) r = true)
  /\ (forall s r,
        tenantValue (tenantId s) <> getProp "_tenantId" r -> matches s r = false)
  /\ notificationsOf subscriptions resources
     = map (fun p => buildNotification (fst p) (snd p))
           (filter (fun p => matches (fst p) (snd p))
                   (list_prod subscriptions resources))
  /\ length (notificationsOf subscriptions resources)
     = length (filter (fun p => matches (fst p) (snd p))
                      (list_prod subscriptions resources))
  /\ (forall n,
        In n (notificationsOf subscriptions resources)
        <-> exists s r, In s subscriptions /\ In r resources
                        /\ matches s r = true /\ n = buildNotification s r).
Proof.
  split; [|split; [|split; [|split]]].
  - intros s r. apply matchSubscription_spec.
  - intros s r Hne. destruct (matches s r) eqn:Hm; [|reflexivity].
    apply matchSubscription_spec in Hm. tauto.
  - apply notifications_as_pairs.
  - rewrite notifications_as_pairs. apply length_map.
  - intros n. rewrite notifications_as_pairs, in_map_iff. split.
    + intros [[s r] [Hn Hin]]. apply filter_In in Hin. destruct Hin as [Hin Hm].
      apply in_prod_iff in Hin. exists s, r. cbn in *. intuition congruence.
    + intros [s [r [Hs [Hr [Hm Hn]]]]]. exists (s, r). split; [symmetry; exact Hn|].
      apply filter_In. split; [apply in_prod_iff; tauto|exact Hm].
Qed.

End MatchFacts.

Section PublishFacts.

Variable SubscriptionNotification : Type.
Variable stringify : SubscriptionNotification -> string.
Variable notificationChannelType : SubscriptionNotification -> string.
Variable v4 : nat -> string.

Local Abbreviation publishOf := (publish stringify notificationChannelType v4).

Lemma batchCommand_messages topicArn batch n :
  map Message
      (PublishBatchRequestEntries
         (fst (batchCommand stringify notificationChannelType v4 topicArn batch n)))
  = map stringify batch.
Proof.
  unfold batchCommand, gbind at 1.
  match goal with
  | |- context [mapGen ?f batch n] =>
      pose proof (mapGen_view f Message stringify (fun x m => eq_refl) batch n) as Hv;
      destruct (mapGen f batch n) as [es n']
  end.
  exact Hv.
Qed.

(** C9: the notifications are cut into consecutive batches, each of one to
    ten notifications and each but the last of exactly ten (23 notifications
    give batches of 10, 10 and 3), and there is one publish command per batch,
    carrying the batch's notifications in order. *)
Theorem publish_in_batches_of_ten topicArn notifications n0 :
  let batches := chunk notifications SNS_MAX_BATCH_SIZE in
  let commands := fst (publishOf topicArn notifications n0) in
  concat batches = notifications
  /\ Forall (fun batch => 1 <= length batch <= 10) batches
  /\ (forall i, S i < length batches -> length (nth i batches []) = 10)
  /\ map (@length _) batches
     = (repeat 10 (length notifications / 10)
        ++ (if length notifications mod 10 =? 0 then []
            else [length notifications mod 10]))%list
  /\ (length notifications = 23 -> map (@length _) batches = [10; 10; 3])
  /\ length commands = length batches
  /\ map (fun command => map Message (PublishBatchRequestEntries command)) commands
     = map (map stringify) batches.
Proof.
  intros batches commands. subst batches commands. unfold SNS_MAX_BATCH_SIZE.
  repeat split.
  - apply chunk_concat. lia.
  - apply chunk_bounds. lia.
  - apply chunk_full_but_last. lia.
  - apply chunk_sizes. lia.
  - intros H. rewrite chunk_sizes by lia. rewrite H. reflexivity.
  - unfold publish. apply mapGen_length.
  - unfold publish, SNS_MAX_BATCH_SIZE. apply mapGen_view.
    intros batch n. apply batchCommand_messages.
Qed.

End PublishFacts.

Lemma match_iff_tenant_and_criteria_witness :
  matchSubscription (fun (_ : unit) (_ : json) => true)
    {| subscriptionId := "S1"; tenantId := Some "T1"; parsedCriteria := tt;
       channelType := "rest-hook"; endpoint := "https://example.org" |}
    (JObj [("resourceType", JStr "Patient"); ("id", JStr "R2");
           ("_tenantId", JStr "T2")])
  = false.
Proof.
  refine (proj1 (proj2 (match_iff_tenant_and_criteria unit (fun _ _ => true)
                          string (fun s _ => subscriptionId s) [] [])) _ _ _).
  cbn. discriminate.
Defined.

(** One subscription of tenant T1 against a resource of T1 and one of T2:
    one notification, for the resource of T1. *)
Example subscriptionNotifications_two_tenants :
  subscriptionNotifications (fun (_ : unit) (_ : json) => true)
    (fun s r => (subscriptionId s, getProp "id" r))
    [ {| subscriptionId := "S1"; tenantId := Some "T1"; parsedCriteria := tt;
         channelType := "rest-hook"; endpoint := "https://example.org" |} ]
    [ JObj [("resourceType", JStr "Patient"); ("id", JStr "R1");
            ("_tenantId", JStr "T1")];
      JObj [("resourceType", JStr "Patient"); ("id", JStr "R2");
            ("_tenantId", JStr "T2")] ]
  = [("S1", Some (JStr "R1"))].
Proof. reflexivity. Qed.

Lemma publish_in_batches_of_ten_witness :
  map (@length nat) (chunk (seq 0 23) SNS_MAX_BATCH_SIZE) = [10; 10; 3].
Proof.
  exact (proj1 (proj2 (proj2 (proj2 (proj2
           (publish_in_batches_of_ten nat (fun _ => "n"%string)
              (fun _ => "rest-hook"%string) (fun _ => "id"%string)
              "arn:topic"%string (seq 0 23) 0)))))
         eq_refl).
Defined.

(** Twelve notifications: two publish commands, of ten and of two entries,
    the ids drawn in order across the batches. *)
Example publish_twelve :
  map (fun command => map Id (PublishBatchRequestEntries command))
      (fst (publish (fun n : nat => "m"%string) (fun _ => "rest-hook"%string)
              (fun n => if n <? 10 then "a"%string else "b"%string)
              "arn:topic"%string (seq 0 12) 0))
  = [ ["a"; "a"; "a"; "a"; "a"; "a"; "a"; "a"; "a"; "a"]; ["b"; "b"] ]%string.
Proof. reflexivity. Qed.

(** * Further properties of tokenQuery *)

Import Shapes.

Lemma queriesOf_length compiled value u :
  length (queriesOf compiled value u) = componentCount value.
Proof.
  destruct value as [s c f]. unfold queriesOf, componentCount, push.
  cbn [system code explicitNoSystemProperty].
  destruct s, c, (truthyFlag f); cbn [app];
    repeat match goal with
      | |- context [if ?b then _ else _] => destruct b
      end; reflexivity.
Qed.

Lemma componentCount_le_3 value : componentCount value <= 3.
Proof.
  unfold componentCount.
  destruct (system value), (code value), (truthyFlag (explicitNoSystemProperty value));
    cbn; lia.
Qed.

(** X1: past the modifier check, as many clauses are built as the value has
    components (a system, a code, a truthy no-system flag), three at most; a
    value with exactly one component is answered by its clause alone, any
    other value by [{bool: {must: [...]}}] over all its clauses. *)
Theorem tokenQuery_component_count compiled value u modifier :
  truthyString modifier = false ->
  length (queriesOf compiled value u) = componentCount value
  /\ componentCount value <= 3
  /\ (componentCount value = 1 ->
      exists q, queriesOf compiled value u = [q]
                /\ tokenQuery compiled value u modifier = Return q)
  /\ (componentCount value <> 1 ->
      tokenQuery compiled value u modifier
      = Return (JObj [("bool", JObj [("must", JArr (queriesOf compiled value u))])])).
Proof.
  intros Hm. pose proof (queriesOf_length compiled value u) as Hl.
  split; [exact Hl|split; [apply componentCount_le_3|split]].
  - intros H1. rewrite H1 in Hl.
    destruct (queriesOf compiled value u) as [|q [|q' qs]] eqn:Hq;
      cbn in Hl; try discriminate Hl.
    exists q. split; [reflexivity|]. apply tokenQuery_single; assumption.
  - intros Hn. apply tokenQuery_wrapped; [assumption|]. rewrite Hl. exact Hn.
Qed.

Lemma tokenQuery_component_count_witness :
  tokenQuery {| path := "identifier" |}
    {| system := Some "s"; code := Some "c"; explicitNoSystemProperty := None |}
    false None
  = Return (JObj [("bool",
      JObj [("must",
        JArr (queriesOf {| path := "identifier" |}
                {| system := Some "s"; code := Some "c";
                   explicitNoSystemProperty := None |} false))])])
  /\ exists q,
       queriesOf {| path := "identifier" |}
         {| system := None; code := Some "c"; explicitNoSystemProperty := Some false |}
         false = [q]
       /\ tokenQuery {| path := "identifier" |}
            {| system := None; code := Some "c"; explicitNoSystemProperty := Some false |}
            false None = Return q.
Proof.
  split.
  - refine (proj2 (proj2 (proj2 (tokenQuery_component_count {| path := "identifier" |}
             {| system := Some "s"; code := Some "c"; explicitNoSystemProperty := None |}
             false None eq_refl))) _).
    cbn. discriminate.
  - exact (proj1 (proj2 (proj2 (tokenQuery_component_count {| path := "identifier" |}
             {| system := None; code := Some "c"; explicitNoSystemProperty := Some false |}
             false None eq_refl))) eq_refl).
Defined.

(** X2: a value with a system, a code outside the override table and a true
    no-system flag is answered by the conjunction of three clauses in the
    order system, code, negated existence; only the field of the last clause
    is free of the suffix. *)
Theorem tokenQuery_three_components compiled s c u modifier :
  ~ overridden compiled c ->
  truthyString modifier = false ->
  tokenQuery compiled
    {| system := Some s; code := Some c; explicitNoSystemProperty := Some true |}
    u modifier
  = Return (JObj [("bool", JObj [("must", JArr
      [ JObj [("multi_match",
               JObj [("fields",
                      JArr [JStr (path compiled ++ ".system" ++ keywordSuffixOf compiled u);
                            JStr (path compiled ++ ".coding.system"
                                  ++ keywordSuffixOf compiled u)]);
                     ("query", JStr s);
                     ("lenient", JBool true)])];
        JObj [("multi_match",
               JObj [("fields", JArr (map JStr (fieldsWhenSuffixed compiled u)));
                     ("query", JStr c);
                     ("lenient", JBool true)])];
        JObj [("bool",
               JObj [("must_not",
                      JObj [("exists",
                             JObj [("field", JStr (path compiled ++ ".system"))])])])]
      ])])]).
Proof.
  intros Hn Hm.
  set (value := {| system := Some s; code := Some c;
                   explicitNoSystemProperty := Some true |}).
  assert (Hq : queriesOf compiled value u
               = [ multiMatch [path compiled ++ ".system" ++ keywordSuffixOf compiled u;
                               path compiled ++ ".coding.system"
                               ++ keywordSuffixOf compiled u] s;
                   multiMatch (fieldsWhenSuffixed compiled u) c;
                   mustNotExists (path compiled ++ ".system") ]).
  { rewrite queriesOf_split.
    rewrite (queriesOf_codeOnly_plain compiled value u c eq_refl Hn). reflexivity. }
  rewrite tokenQuery_wrapped; [rewrite Hq; reflexivity|assumption|].
  rewrite Hq. discriminate.
Qed.

Lemma tokenQuery_three_components_witness :
  tokenQuery {| path := "identifier" |}
    {| system := Some "http://example.org"; code := Some "active";
       explicitNoSystemProperty := Some true |} true None
  = Return (JObj [("bool", JObj [("must", JArr
      [ JObj [("multi_match",
               JObj [("fields", JArr [JStr "identifier.system.keyword";
                                      JStr "identifier.coding.system.keyword"]);
                     ("query", JStr "http://example.org");
                     ("lenient", JBool true)])];
        JObj [("multi_match",
               JObj [("fields", JArr [JStr "identifier.code.keyword";
                                      JStr "identifier.coding.code.keyword";
                                      JStr "identifier.value.keyword";
                                      JStr "identifier.keyword";
                                      JStr "identifier"]);
                     ("query", JStr "active");
                     ("lenient", JBool true)])];
        JObj [("bool",
               JObj [("must_not",
                      JObj [("exists",
                             JObj [("field", JStr "identifier.system")])])])]
      ])])]).
Proof.
  refine (tokenQuery_three_components {| path := "identifier" |}
            "http://example.org" "active" true None _ eq_refl).
  intros [Hp _]. discriminate Hp.
Defined.

(** X3: [tokenQuery] returns a query exactly when the modifier is absent or
    the empty string, and the query it returns is then the one built without
    a modifier: the modifier never shapes the query. *)
Theorem tokenQuery_modifier_only_gates compiled value u modifier :
  ((exists q, tokenQuery compiled value u modifier = Return q)
   <-> truthyString modifier = false)
  /\ (truthyString modifier = false ->
      tokenQuery compiled value u modifier = tokenQuery compiled value u None).
Proof.
  split; [split|].
  - intros [q Hq]. destruct modifier as [m|]; [|reflexivity].
    cbn. destruct (String.eqb_spec m "") as [|Hne]; [reflexivity|].
    unfold tokenQuery in Hq. rewrite (checkModifier_truthy _ Hne) in Hq.
    discriminate Hq.
  - intros Hm. unfold tokenQuery. rewrite (checkModifier_falsy _ Hm). cbn [bind].
    destruct (Nat.eqb _ 1); eexists; reflexivity.
  - intros Hm. unfold tokenQuery. rewrite (checkModifier_falsy _ Hm). reflexivity.
Qed.

Lemma tokenQuery_modifier_only_gates_witness :
  tokenQuery {| path := "status" |}
    {| system := None; code := Some "active"; explicitNoSystemProperty := None |}
    true (Some "")
  = tokenQuery {| path := "status" |}
      {| system := None; code := Some "active"; explicitNoSystemProperty := None |}
      true None.
Proof.
  exact (proj2 (tokenQuery_modifier_only_gates {| path := "status" |}
           {| system := None; code := Some "active"; explicitNoSystemProperty := None |}
           true (Some "")) eq_refl).
Defined.

(** X4: on the excluded path [id] the flag [useKeywordSubFields] changes
    nothing: the same result with the flag set and unset. *)
Theorem tokenQuery_id_ignores_keyword_flag compiled value modifier :
  path compiled = "id" ->
  tokenQuery compiled value true modifier = tokenQuery compiled value false modifier.
Proof.
  intros Hp. unfold tokenQuery, queriesOf, keywordSuffixOf, useKeywordSuffixOf.
  rewrite Hp. reflexivity.
Qed.

Lemma tokenQuery_id_ignores_keyword_flag_witness :
  tokenQuery {| path := "id" |}
    {| system := Some "s"; code := Some "abc"; explicitNoSystemProperty := None |}
    true None
  = tokenQuery {| path := "id" |}
      {| system := Some "s"; code := Some "abc"; explicitNoSystemProperty := None |}
      false None.
Proof.
  exact (tokenQuery_id_ignores_keyword_flag {| path := "id" |}
           {| system := Some "s"; code := Some "abc"; explicitNoSystemProperty := None |}
           None eq_refl).
Defined.

(** Every clause pushed by [tokenQuery] is one of its four literals. *)
Lemma queriesOf_elements compiled value u q :
  In q (queriesOf compiled value u) ->
  (exists s, q = multiMatch [path compiled ++ ".system" ++ keywordSuffixOf compiled u;
                             path compiled ++ ".coding.system"
                             ++ keywordSuffixOf compiled u] s)
  \/ (exists c, q = multiMatch (fieldsWhenSuffixed compiled u) c)
  \/ (exists t, q = intentTerm t)
  \/ q = mustNotExists (path compiled ++ ".system").
Proof.
  destruct value as [s c f]. unfold queriesOf, push, fieldsWhenSuffixed, fourCandidates.
  cbn [system code explicitNoSystemProperty].
  destruct s as [s|], c as [c|], (truthyFlag f); cbn [app];
    repeat match goal with
      | |- context [if ?b then _ else _] => destruct b
      end;
    cbn [In app]; intros H;
    repeat match goal with
      | H : _ \/ _ |- _ => destruct H as [H|H]
      | H : False |- _ => contradiction
      end; subst q; eauto 6.
Qed.

(** X5: a query returned by [tokenQuery] is always an object with a single
    property, [multi_match] or [bool]; the function never returns
    [undefined], whatever the value. *)
Theorem tokenQuery_returns_one_key compiled value u modifier q :
  tokenQuery compiled value u modifier = Return q ->
  keysOf q = ["multi_match"] \/ keysOf q = ["bool"].
Proof.
  unfold tokenQuery. destruct (checkModifier modifier); cbn [bind]; [|discriminate].
  destruct (queriesOf compiled value u) as [|q0 [|q1 qs]] eqn:Hq;
    cbn [length Nat.eqb nth]; intros H; injection H as <-;
    try (right; reflexivity).
  assert (Hin : In q0 (queriesOf compiled value u)) by (rewrite Hq; left; reflexivity).
  apply queriesOf_elements in Hin.
  destruct Hin as [[s ->]|[[c ->]|[[t ->]| ->]]]; cbn; auto.
Qed.

Lemma tokenQuery_returns_one_key_witness :
  keysOf (JObj [("bool",
                 JObj [("must_not",
                        JObj [("exists", JObj [("field", JStr "code.system")])])])])
  = ["multi_match"]
  \/ keysOf (JObj [("bool",
                    JObj [("must_not",
                           JObj [("exists", JObj [("field", JStr "code.system")])])])])
     = ["bool"].
Proof.
  exact (tokenQuery_returns_one_key {| path := "code" |}
           {| system := None; code := None; explicitNoSystemProperty := Some true |}
           true None _ eq_refl).
Defined.

Lemma string_app_inv_head (p a b : string) : p ++ a = p ++ b -> a = b.
Proof.
  induction p as [|ch p IH]; cbn; intros H; [exact H|].
  injection H as H. apply IH, H.
Qed.

Lemma string_app_nil_r (p : string) : p ++ "" = p.
Proof. induction p as [|ch p IH]; cbn; [reflexivity|rewrite IH; reflexivity]. Qed.

Lemma map_JStr_inj (l l' : list string) : map JStr l = map JStr l' -> l = l'.
Proof.
  revert l'. induction l as [|x xs IH]; intros [|y ys] H; cbn in H;
    try discriminate H; [reflexivity|].
  injection H as Hx Hxs. rewrite Hx, (IH _ Hxs). reflexivity.
Qed.

Lemma multiMatch_inj (fields fields' : list string) (query query' : string) :
  multiMatch fields query = multiMatch fields' query' ->
  fields = fields' /\ query = query'.
Proof.
  unfold multiMatch. intros H. injection H as Hf Hq.
  apply map_JStr_inj in Hf. split; assumption.
Qed.

Lemma NoDup_map_append (p : string) (sufs : list string) :
  NoDup sufs -> NoDup (map (String.append p) sufs).
Proof.
  induction 1 as [|x xs Hx Hxs IH]; cbn; constructor; [|exact IH].
  intros Hin. apply in_map_iff in Hin. destruct Hin as [y [Hy Hin]].
  apply string_app_inv_head in Hy. subst y. contradiction.
Qed.

Lemma NoDup_system_fields compiled u :
  NoDup [path compiled ++ ".system" ++ keywordSuffixOf compiled u;
         path compiled ++ ".coding.system" ++ keywordSuffixOf compiled u].
Proof.
  unfold keywordSuffixOf. destruct (useKeywordSuffixOf compiled u); cbn [String.append].
  - apply (NoDup_map_append (path compiled) [".system.keyword"; ".coding.system.keyword"]).
    repeat constructor; cbn; intuition discriminate.
  - apply (NoDup_map_append (path compiled) [".system"; ".coding.system"]).
    repeat constructor; cbn; intuition discriminate.
Qed.

Lemma NoDup_code_fields compiled u : NoDup (fieldsWhenSuffixed compiled u).
Proof.
  unfold fieldsWhenSuffixed, fourCandidates, keywordSuffixOf.
  destruct (useKeywordSuffixOf compiled u); cbn [String.append app].
  - rewrite <- (string_app_nil_r (path compiled)) at 5.
    apply (NoDup_map_append (path compiled)
             [".code.keyword"; ".coding.code.keyword"; ".value.keyword"; ".keyword"; ""]).
    repeat constructor; cbn; intuition discriminate.
  - apply (NoDup_map_append (path compiled) [".code"; ".coding.code"; ".value"; ""]).
    repeat constructor; cbn; intuition discriminate.
Qed.

(** X6: no multi-field match built by [tokenQuery] names a field twice,
    whatever the path and the flag: the candidates of the system and of the
    code are pairwise distinct, the bare path included. *)
Theorem tokenQuery_fields_distinct compiled value u fields query :
  In (multiMatch fields query) (queriesOf compiled value u) ->
  NoDup fields.
Proof.
  intros Hin. apply queriesOf_elements in Hin.
  destruct Hin as [[s H]|[[c H]|[[t H]|H]]]; try discriminate H.
  - apply multiMatch_inj in H. destruct H as [-> _]. apply NoDup_system_fields.
  - apply multiMatch_inj in H. destruct H as [-> _]. apply NoDup_code_fields.
Qed.

Lemma tokenQuery_fields_distinct_witness :
  NoDup ["active.code.keyword"; "active.coding.code.keyword";
         "active.value.keyword"; "active.keyword"; "active"].
Proof.
  refine (tokenQuery_fields_distinct {| path := "active" |}
            {| system := None; code := Some "true"; explicitNoSystemProperty := None |}
            true _ "true" _).
  cbn. left. reflexivity.
Defined.

(** * Further properties of the subscription matcher *)

Lemma ceil_div_10 (n : nat) :
  n / 10 + (if n mod 10 =? 0 then 0 else 1) = (n + 9) / 10.
Proof.
  pose proof (Nat.div_mod_eq n 10) as Hdm.
  pose proof (Nat.mod_upper_bound n 10 ltac:(lia)) as Hub.
  destruct (Nat.eqb_spec (n mod 10) 0) as [H0|H0].
  - apply (Nat.div_unique (n + 9) 10 _ 9); lia.
  - apply (Nat.div_unique (n + 9) 10 _ (n mod 10 - 1)); lia.
Qed.

Lemma chunk_10_length {A : Type} (l : list A) :
  length (chunk l 10) = (length l + 9) / 10.
Proof.
  rewrite <- (length_map (@length A)), chunk_sizes by lia.
  rewrite length_app, repeat_length, <- ceil_div_10.
  destruct (length l mod 10 =? 0); reflexivity.
Qed.

Lemma NoDup_map_injective {A B : Type} (f : A -> B) (l : list A) :
  (forall a b, f a = f b -> a = b) -> NoDup l -> NoDup (map f l).
Proof.
  intros Hf. induction 1 as [|x xs Hx Hxs IH]; cbn; constructor; [|exact IH].
  intros Hin. apply in_map_iff in Hin. destruct Hin as [y [Hy Hin]].
  apply Hf in Hy. subst y. contradiction.
Qed.

Lemma NoDup_concat_each {A : Type} (ls : list (list A)) :
  NoDup (concat ls) -> Forall (@NoDup A) ls.
Proof.
  induction ls as [|l ls IH]; cbn; intros H; constructor.
  - apply NoDup_app_remove_r in H. exact H.
  - apply IH. apply NoDup_app_remove_l in H. exact H.
Qed.

Section PublishMore.

Variable SubscriptionNotification : Type.
Variable stringify : SubscriptionNotification -> string.
Variable notificationChannelType : SubscriptionNotification -> string.
Variable v4 : nat -> string.

Local Abbreviation commandOf := (batchCommand stringify notificationChannelType v4).
Local Abbreviation publishOf := (publish stringify notificationChannelType v4).

(** One command: its ids are the next ids of the generator, one per
    notification of the batch, and its entries follow the batch. *)
Lemma batchCommand_spec topicArn batch n :
  idsOf (fst (commandOf topicArn batch n)) = map v4 (seq n (length batch))
  /\ snd (commandOf topicArn batch n) = n + length batch
  /\ messagesOf (fst (commandOf topicArn batch n)) = map stringify batch
  /\ channelTypesOf (fst (commandOf topicArn batch n))
     = map notificationChannelType batch
  /\ TopicArn (fst (commandOf topicArn batch n)) = topicArn.
Proof.
  unfold batchCommand, idsOf, messagesOf, channelTypesOf.
  match goal with |- context [mapGen ?f batch] => set (F := f) end.
  unfold gbind.
  assert (H : forall b m,
             map Id (fst (mapGen F b m)) = map v4 (seq m (length b))
             /\ snd (mapGen F b m) = m + length b
             /\ map Message (fst (mapGen F b m)) = map stringify b
             /\ map MessageAttributes_channelType_StringValue (fst (mapGen F b m))
                = map notificationChannelType b).
  { induction b as [|x xs IH]; intros m.
    - cbn. repeat split; lia.
    - rewrite mapGen_cons. cbn [fst snd map length seq].
      change (snd (F x m)) with (S m).
      destruct (IH (S m)) as [Hi [Hs [Hm Hc]]].
      rewrite Hi, Hs, Hm, Hc. repeat split; lia. }
  specialize (H batch n). destruct (mapGen F batch n) as [es n'].
  cbn [fst snd] in *. unfold ret. cbn [fst snd PublishBatchRequestEntries TopicArn].
  destruct H as [Hi [Hs [Hm Hc]]]. repeat split; assumption.
Qed.

(** The commands of a list of batches. *)
Lemma commands_spec topicArn (batches : list (list SubscriptionNotification)) n :
  concat (map idsOf (fst (mapGen (commandOf topicArn) batches n)))
  = map v4 (seq n (length (concat batches)))
  /\ snd (mapGen (commandOf topicArn) batches n) = n + length (concat batches)
  /\ map messagesOf (fst (mapGen (commandOf topicArn) batches n))
     = map (map stringify) batches
  /\ map channelTypesOf (fst (mapGen (commandOf topicArn) batches n))
     = map (map notificationChannelType) batches
  /\ Forall (fun command => TopicArn command = topicArn)
            (fst (mapGen (commandOf topicArn) batches n)).
Proof.
  revert n. induction batches as [|b bs IH]; intros n.
  - cbn. repeat split; try constructor; lia.
  - rewrite mapGen_cons. cbn [fst snd map concat].
    destruct (batchCommand_spec topicArn b n) as [Hi [Hs [Hm [Hc Ht]]]].
    destruct (IH (snd (commandOf topicArn b n))) as [Hi' [Hs' [Hm' [Hc' Ht']]]].
    split; [|split; [|split; [|split]]].
    + rewrite Hi, Hi', Hs, length_app, seq_app, map_app. reflexivity.
    + rewrite Hs', Hs, length_app. lia.
    + rewrite Hm, Hm'. reflexivity.
    + rewrite Hc, Hc'. reflexivity.
    + constructor; assumption.
Qed.

Lemma publish_entry_counts topicArn notifications n0 :
  map (fun command => length (PublishBatchRequestEntries command))
      (fst (publishOf topicArn notifications n0))
  = map (@length _) (chunk notifications SNS_MAX_BATCH_SIZE).
Proof.
  unfold publish.
  destruct (commands_spec topicArn (chunk notifications SNS_MAX_BATCH_SIZE) n0)
    as [_ [_ [Hm _]]].
  apply (f_equal (map (@length string))) in Hm. rewrite !map_map in Hm.
  rewrite <- (map_ext _ _ (fun b => length_map stringify b)).
  rewrite <- Hm. apply map_ext. intros command. unfold messagesOf.
  symmetry. apply length_map.
Qed.

(** X7: the ids of a cycle are the next ids of the generator, one per
    notification, handed out in order across the batches; so when the
    generator never repeats an id, no id occurs twice in the whole cycle, and
    none twice within a batch. *)
Theorem publish_ids_in_order topicArn notifications n0 :
  let commands := fst (publishOf topicArn notifications n0) in
  concat (map idsOf commands) = map v4 (seq n0 (length notifications))
  /\ snd (publishOf topicArn notifications n0) = n0 + length notifications
  /\ ((forall a b, v4 a = v4 b -> a = b) ->
      NoDup (concat (map idsOf commands))
      /\ Forall (fun command => NoDup (idsOf command)) commands).
Proof.
  intros commands. subst commands. unfold publish.
  destruct (commands_spec topicArn (chunk notifications SNS_MAX_BATCH_SIZE) n0)
    as [Hi [Hs _]].
  rewrite chunk_concat in Hi, Hs by (unfold SNS_MAX_BATCH_SIZE; lia).
  split; [exact Hi|split; [exact Hs|]].
  intros Hinj.
  assert (Hnd : NoDup (concat (map idsOf
                   (fst (mapGen (commandOf topicArn)
                           (chunk notifications SNS_MAX_BATCH_SIZE) n0))))).
  { rewrite Hi. apply NoDup_map_injective; [exact Hinj|apply seq_NoDup]. }
  split; [exact Hnd|].
  apply NoDup_concat_each in Hnd.
  exact (proj1 (Forall_map idsOf (@NoDup string) _) Hnd).
Qed.

(** X8: [n] notifications are sent in [ceil(n / 10)] publish commands, every
    command carries at least one and at most ten entries, and the entries of
    all commands together are [n]. *)
Theorem publish_command_count topicArn notifications n0 :
  let commands :=
    fst (publish stringify notificationChannelType v4 topicArn notifications n0) in
  length commands = (length notifications + 9) / 10
  /\ Forall (fun command => 1 <= length (PublishBatchRequestEntries command) <= 10)
            commands
  /\ length (concat (map PublishBatchRequestEntries commands)) = length notifications.
Proof.
  intros commands. subst commands.
  pose proof (publish_entry_counts topicArn notifications n0) as Hc.
  split; [|split].
  - unfold publish. rewrite mapGen_length. apply chunk_10_length.
  - apply (Forall_map (fun command => length (PublishBatchRequestEntries command))
                      (fun k => 1 <= k <= 10)).
    rewrite Hc. apply Forall_map. apply chunk_bounds. unfold SNS_MAX_BATCH_SIZE. lia.
  - rewrite length_concat, map_map, Hc, <- length_concat, chunk_concat
      by (unfold SNS_MAX_BATCH_SIZE; lia).
    reflexivity.
Qed.

End PublishMore.

Section MatchCycle.

Variable ParsedFhirQueryParams : Type.
Variable matchParsedFhirQueryParams : ParsedFhirQueryParams -> json -> bool.
Variable SubscriptionNotification : Type.
Variable buildNotification :
  Subscription ParsedFhirQueryParams -> json -> SubscriptionNotification.
Variable stringify : SubscriptionNotification -> string.
Variable notificationChannelType : SubscriptionNotification -> string.
Variable v4 : nat -> string.

Local Abbreviation matches := (matchSubscription matchParsedFhirQueryParams).
Local Abbreviation notificationsOf :=
  (subscriptionNotifications matchParsedFhirQueryParams buildNotification).
Local Abbreviation cycle :=
  (match_ matchParsedFhirQueryParams buildNotification stringify
          notificationChannelType v4).

(** X9: a match cycle publishes every notification once and in order: read
    across the commands, the messages are the serialised notifications and
    the channel types are theirs; every command goes to the given topic. *)
Theorem match_publishes_every_notification topicArn subscriptions resources n0 :
  let commands := fst (cycle topicArn subscriptions resources n0) in
  concat (map messagesOf commands)
  = map stringify (notificationsOf subscriptions resources)
  /\ concat (map channelTypesOf commands)
     = map notificationChannelType (notificationsOf subscriptions resources)
  /\ Forall (fun command => TopicArn command = topicArn) commands.
Proof.
  intros commands. subst commands. unfold match_, publish.
  set (ns := notificationsOf subscriptions resources).
  destruct (commands_spec _ stringify notificationChannelType v4 topicArn
              (chunk ns SNS_MAX_BATCH_SIZE) n0) as [_ [_ [Hm [Hc Ht]]]].
  rewrite Hm, Hc, <- !concat_map, chunk_concat by (unfold SNS_MAX_BATCH_SIZE; lia).
  repeat split. exact Ht.
Qed.

Lemma filter_none {A : Type} (f : A -> bool) (l : list A) :
  (forall x, In x l -> f x = false) -> filter f l = [].
Proof.
  induction l as [|x xs IH]; cbn; intros H; [reflexivity|].
  rewrite (H x (or_introl eq_refl)). apply IH. intros y Hy. apply H. right. exact Hy.
Qed.

(** X10: when no subscription matches any eligible resource (in particular
    when there is no active subscription or no eligible resource) the cycle
    makes no publish call and draws no id. *)
Theorem match_without_matches_publishes_nothing topicArn subscriptions resources n0 :
  (forall s r, In s subscriptions -> In r resources ->
               matchSubscription matchParsedFhirQueryParams s r = false) ->
  subscriptionNotifications matchParsedFhirQueryParams buildNotification
    subscriptions resources = []
  /\ match_ matchParsedFhirQueryParams buildNotification stringify
       notificationChannelType v4 topicArn subscriptions resources n0
     = ([], n0).
Proof.
  intros Hno.
  assert (Hn : notificationsOf subscriptions resources = []).
  { rewrite notifications_as_pairs, filter_none; [reflexivity|].
    intros [s r] Hin. apply in_prod_iff in Hin. destruct Hin as [Hs Hr].
    apply Hno; assumption. }
  split; [exact Hn|].
  unfold match_, publish. rewrite Hn. simp chunk. reflexivity.
Qed.

(** X11: tenants are compared without coercion.  A subscription without a
    tenant id matches a resource without [_tenantId] exactly when its criteria
    hold, and never a resource that has a [_tenantId]; a subscription of
    tenant [t] matches only resources whose [_tenantId] is the string [t]. *)
Theorem matchSubscription_tenancy_modes subscription resource :
  (tenantId subscription = None -> getProp "_tenantId" resource = None ->
   matches subscription resource
   = matchParsedFhirQueryParams (parsedCriteria subscription) resource)
  /\ (tenantId subscription = None -> getProp "_tenantId" resource <> None ->
      matches subscription resource = false)
  /\ (forall t, tenantId subscription = Some t ->
        matches subscription resource = true ->
        getProp "_tenantId" resource = Some (JStr t)).
Proof.
  unfold matchSubscription. split; [|split].
  - intros -> ->. reflexivity.
  - intros -> Hr. destruct (getProp "_tenantId" resource); [reflexivity|congruence].
  - intros t -> H. apply andb_true_iff in H. destruct H as [H _].
    apply strictEq_spec in H. symmetry. exact H.
Qed.

End MatchCycle.

Lemma unary_id_length (n : nat) :
  String.length (string_of_list_ascii (repeat "a"%char n)) = n.
Proof. induction n as [|n IH]; cbn; [reflexivity|rewrite IH; reflexivity]. Qed.

Lemma unary_id_injective (a b : nat) :
  string_of_list_ascii (repeat "a"%char a) = string_of_list_ascii (repeat "a"%char b) ->
  a = b.
Proof.
  intros H. apply (f_equal String.length) in H.
  rewrite !unary_id_length in H. exact H.
Qed.

Lemma publish_ids_in_order_witness :
  NoDup (concat (map idsOf
    (fst (publish (fun n : nat => "m") (fun _ => "rest-hook")
            (fun n => string_of_list_ascii (repeat "a"%char n))
            "arn:topic" (seq 0 12) 0)))).
Proof.
  exact (proj1 (proj2 (proj2
           (publish_ids_in_order nat (fun _ => "m") (fun _ => "rest-hook")
              (fun n => string_of_list_ascii (repeat "a"%char n))
              "arn:topic" (seq 0 12) 0))
           unary_id_injective)).
Defined.

Lemma match_without_matches_publishes_nothing_witness :
  match_ (fun (_ : unit) (_ : json) => true)
    (fun s (_ : json) => subscriptionId s) (fun n => n) (fun _ => "rest-hook")
    (fun _ => "id") "arn:topic" []
    [JObj [("resourceType", JStr "Patient"); ("id", JStr "R1")]] 7
  = ([], 7).
Proof.
  refine (proj2 (match_without_matches_publishes_nothing unit (fun _ _ => true)
                   string (fun s _ => subscriptionId s) (fun n => n)
                   (fun _ => "rest-hook") (fun _ => "id") "arn:topic" [] _ 7 _)).
  intros s r Hs. destruct Hs.
Defined.

Lemma matchSubscription_tenancy_modes_witness :
  matchSubscription (fun (_ : unit) (_ : json) => true)
    {| subscriptionId := "S1"; tenantId := None; parsedCriteria := tt;
       channelType := "rest-hook"; endpoint := "https://example.org" |}
    (JObj [("resourceType", JStr "Patient"); ("id", JStr "R1");
           ("_tenantId", JStr "T1")])
  = false.
Proof.
  refine (proj1 (proj2 (matchSubscription_tenancy_modes unit (fun _ _ => true)
            {| subscriptionId := "S1"; tenantId := None; parsedCriteria := tt;
               channelType := "rest-hook"; endpoint := "https://example.org" |}
            (JObj [("resourceType", JStr "Patient"); ("id", JStr "R1");
                   ("_tenantId", JStr "T1")]))) eq_refl _).
  cbn. discriminate.
Defined.

(** * Properties of the Elasticsearch client set-up *)

Lemma orElse_nonempty (v : option string) (fallback : string) :
  fallback <> "" -> ElasticSearchClient.orElse v fallback <> "".
Proof.
  intros Hf. unfold ElasticSearchClient.orElse. destruct v as [s|]; [|exact Hf].
  destruct (String.eqb_spec s ""); assumption.
Qed.

(** X12: whatever the environment, the client's [node] is not the empty
    string: it is a non-empty endpoint variable or the fallback
    [https://fake-es-endpoint.com]; and the region of a configuration update
    is not empty either. *)
Theorem load_node_never_empty (env : ElasticSearchClient.Env) :
  ElasticSearchClient.node (ElasticSearchClient.load env) <> ""
  /\ (ElasticSearchClient.node (ElasticSearchClient.load env)
      = "https://fake-es-endpoint.com"
      \/ Some (ElasticSearchClient.node (ElasticSearchClient.load env))
         = env "ELASTICSEARCH_DOMAIN_ENDPOINT"
      \/ Some (ElasticSearchClient.node (ElasticSearchClient.load env))
         = env "OFFLINE_ELASTICSEARCH_DOMAIN_ENDPOINT")
  /\ (forall update,
        ElasticSearchClient.configUpdate (ElasticSearchClient.load env) = Some update ->
        ElasticSearchClient.region update <> "").
Proof.
  unfold ElasticSearchClient.load.
  destruct (ElasticSearchClient.isTrueLiteral (env "IS_OFFLINE"));
    cbn [ElasticSearchClient.node ElasticSearchClient.configUpdate];
    (split; [apply orElse_nonempty; discriminate|split]).
  - unfold ElasticSearchClient.orElse.
    destruct (env "OFFLINE_ELASTICSEARCH_DOMAIN_ENDPOINT") as [s|]; auto.
    destruct (String.eqb s ""); auto.
  - intros update H. injection H as <-. cbn. apply orElse_nonempty. discriminate.
  - unfold ElasticSearchClient.orElse.
    destruct (env "ELASTICSEARCH_DOMAIN_ENDPOINT") as [s|]; auto.
    destruct (String.eqb s ""); auto.
  - intros update H. discriminate H.
Qed.

Lemma load_node_never_empty_witness :
  ElasticSearchClient.region
    {| ElasticSearchClient.region := "us-west-2";
       ElasticSearchClient.accessKeyId := None;
       ElasticSearchClient.secretAccessKey := None |} <> "".
Proof.
  exact (proj2 (proj2 (load_node_never_empty
           (fun k => if String.eqb k "IS_OFFLINE" then Some "true"
                     else if String.eqb k "AWS_REGION" then Some "" else None)))
         _ eq_refl).
Defined.

(** X13: the offline switch is the literal ['true'] only.  With it, the
    configuration is updated with the credentials of the environment and the
    node ignores [ELASTICSEARCH_DOMAIN_ENDPOINT]; with any other value, or
    none, no update is made and the node ignores
    [OFFLINE_ELASTICSEARCH_DOMAIN_ENDPOINT]. *)
Theorem load_offline_switch (env env' : ElasticSearchClient.Env) :
  (env "IS_OFFLINE" = Some "true" ->
   (exists update,
      ElasticSearchClient.configUpdate (ElasticSearchClient.load env) = Some update
      /\ ElasticSearchClient.accessKeyId update = env "ACCESS_KEY"
      /\ ElasticSearchClient.secretAccessKey update = env "SECRET_KEY")
   /\ (env' "IS_OFFLINE" = Some "true" ->
       env' "OFFLINE_ELASTICSEARCH_DOMAIN_ENDPOINT"
       = env "OFFLINE_ELASTICSEARCH_DOMAIN_ENDPOINT" ->
       ElasticSearchClient.node (ElasticSearchClient.load env')
       = ElasticSearchClient.node (ElasticSearchClient.load env)))
  /\ (env "IS_OFFLINE" <> Some "true" ->
      ElasticSearchClient.configUpdate (ElasticSearchClient.load env) = None
      /\ (env' "IS_OFFLINE" <> Some "true" ->
          env' "ELASTICSEARCH_DOMAIN_ENDPOINT" = env "ELASTICSEARCH_DOMAIN_ENDPOINT" ->
          ElasticSearchClient.node (ElasticSearchClient.load env')
          = ElasticSearchClient.node (ElasticSearchClient.load env))).
Proof.
  assert (Hoff : forall e : ElasticSearchClient.Env, e "IS_OFFLINE" <> Some "true" ->
                   ElasticSearchClient.isTrueLiteral (e "IS_OFFLINE") = false).
  { intros e He. unfold ElasticSearchClient.isTrueLiteral.
    destruct (e "IS_OFFLINE") as [s|]; [|reflexivity].
    destruct (String.eqb_spec s "true"); [subst; contradiction|reflexivity]. }
  unfold ElasticSearchClient.load. split.
  - intros He. rewrite He. cbn. split; [eexists; split; [reflexivity|split; reflexivity]|].
    intros He' Hv. rewrite He', Hv. reflexivity.
  - intros He. rewrite (Hoff env He). cbn. split; [reflexivity|].
    intros He' Hv. rewrite (Hoff env' He'), Hv. reflexivity.
Qed.

Lemma load_offline_switch_witness :
  ElasticSearchClient.load
    (fun k => if String.eqb k "IS_OFFLINE" then Some "TRUE"
              else if String.eqb k "OFFLINE_ELASTICSEARCH_DOMAIN_ENDPOINT"
                   then Some "http://localhost:9200" else None)
  = {| ElasticSearchClient.configUpdate := None;
       ElasticSearchClient.node := "https://fake-es-endpoint.com" |}
  /\ ElasticSearchClient.node (ElasticSearchClient.load
       (fun k => if String.eqb k "IS_OFFLINE" then Some "true"
                 else if String.eqb k "ELASTICSEARCH_DOMAIN_ENDPOINT"
                      then Some "https://prod" else None))
     = ElasticSearchClient.node (ElasticSearchClient.load
         (fun k => if String.eqb k "IS_OFFLINE" then Some "true" else None)).
Proof.
  split.
  - reflexivity.
  - refine (proj2 (proj1 (load_offline_switch
              (fun k => if String.eqb k "IS_OFFLINE" then Some "true" else None)
              (fun k => if String.eqb k "IS_OFFLINE" then Some "true"
                        else if String.eqb k "ELASTICSEARCH_DOMAIN_ENDPOINT"
                             then Some "https://prod" else None)) eq_refl)
            eq_refl eq_refl).
Defined.
